(** * pyts-utils: the logo curve and the two drawing routines

    A shallow embedding of [logo/logo.py] and [github_ribbon/github_ribbon.py].

    The numeric code of [logo.py] is written once, over an interface of the
    NumPy scalar operations it uses, and read at two carriers:

    - [ideal]: real numbers extended with one "not a number" value, where
      [np.sqrt] of a negative number is not a number and every operation
      propagates it.  Arithmetic is exact; overflow and rounding are
      outside this reading.
    - [float]: IEEE 754 binary64, the kernel's primitive floats, which is
      the arithmetic NumPy performs.  Every definition evaluates there.

    The drawing routines are embedded as the ordered trace of matplotlib
    calls they issue. *)

From Stdlib Require Import Reals Lra Lia List ZArith QArith String Bool.
From Stdlib Require Import Floats.
From Stdlib Require Uint63.
Import ListNotations.
Set Warnings "-inexact-float".

(** ** The scalar interface *)

(** What the source asks of a NumPy scalar: decimal literals, the four
    arithmetic operations, [np.sqrt], [np.maximum] and the two order
    tests, whose Python result is a [bool]. *)
Class Scalar (T : Type) : Type := {
  lit : Q -> T;
  add : T -> T -> T;
  sub : T -> T -> T;
  mul : T -> T -> T;
  div : T -> T -> T;
  opp : T -> T;
  np_sqrt : T -> T;
  np_maximum : T -> T -> T;
  ge : T -> T -> bool;
  le : T -> T -> bool
}.

Declare Scope np_scope.
Delimit Scope np_scope with np.

Section Generic.
Context {T : Type} `{Scalar T}.

(** A Python [bool] met by an arithmetic operator counts as 1 or 0. *)
Definition of_bool (c : bool) : T := if c then lit 1 else lit 0.

(** [x ** n] for a literal exponent. *)
Fixpoint power (x : T) (n : nat) : T :=
  match n with
  | O => lit 1
  | S k => mul x (power x k)
  end.

Definition of_nat (n : nat) : T := lit (inject_Z (Z.of_nat n)).
End Generic.

Notation "# q" := (lit q%Q) (at level 1, q at level 0, format "# q") : np_scope.
Infix "+" := add : np_scope.
Infix "-" := sub : np_scope.
Infix "*" := mul : np_scope.
Infix "/" := div : np_scope.
Notation "- x" := (opp x) : np_scope.
Infix "**" := power (at level 30, right associativity) : np_scope.
Notation "x >=? y" := (of_bool (ge x y)) (at level 70, no associativity) : np_scope.
Notation "x <=? y" := (of_bool (le x y)) (at level 70, no associativity) : np_scope.

(** ** Carrier 1: reals with a not-a-number value *)

Definition ideal : Type := option R.

Definition real (x : R) : ideal := Some x.

Definition Rleb (x y : R) : bool := if Rle_dec x y then true else false.

Definition lift2 (f : R -> R -> R) (u v : ideal) : ideal :=
  match u, v with
  | Some x, Some y => Some (f x y)
  | _, _ => None
  end.

Definition ideal_div (u v : ideal) : ideal :=
  match u, v with
  | Some x, Some y => if Req_dec_T y 0 then None else Some (x / y)%R
  | _, _ => None
  end.

Definition ideal_sqrt (u : ideal) : ideal :=
  match u with
  | Some x => if Rle_dec 0 x then Some (R_sqrt.sqrt x) else None
  | None => None
  end.

Definition ideal_le (u v : ideal) : bool :=
  match u, v with
  | Some x, Some y => Rleb x y
  | _, _ => false
  end.

#[export] Instance ideal_scalar : Scalar ideal := {
  lit q := Some (Q2R q);
  add := lift2 Rplus;
  sub := lift2 Rminus;
  mul := lift2 Rmult;
  div := ideal_div;
  opp u := option_map Ropp u;
  np_sqrt := ideal_sqrt;
  np_maximum := lift2 Rmax;
  ge u v := ideal_le v u;
  le := ideal_le
}.

(** ** Carrier 2: binary64 *)

Definition float_of_Z (z : Z) : float :=
  match z with
  | Z0 => PrimFloat.zero
  | Zpos _ => PrimFloat.of_uint63 (Uint63.of_Z z)
  | Zneg p => PrimFloat.opp (PrimFloat.of_uint63 (Uint63.of_Z (Zpos p)))
  end.

(** A decimal literal is read as the correctly rounded quotient of its
    numerator and power-of-ten denominator, which is the double nearest
    to it when both are below 2^53. *)
Definition float_of_Q (q : Q) : float :=
  PrimFloat.div (float_of_Z (Qnum q)) (float_of_Z (Zpos (Qden q))).

(** [np.maximum] returns its first argument when it is the larger or is
    not a number, and the second otherwise. *)
Definition float_maximum (x y : float) : float :=
  if PrimFloat.leb y x || PrimFloat.is_nan x then x else y.

#[export] Instance float_scalar : Scalar float := {
  lit := float_of_Q;
  add := PrimFloat.add;
  sub := PrimFloat.sub;
  mul := PrimFloat.mul;
  div := PrimFloat.div;
  opp := PrimFloat.opp;
  np_sqrt := PrimFloat.sqrt;
  np_maximum := float_maximum;
  ge x y := PrimFloat.leb y x;
  le := PrimFloat.leb
}.

(** ** The matplotlib and NumPy calls the routines issue *)

Section Matplotlib.
Variable T : Type.

(** The artists the two routines construct, with the keyword arguments
    they pass; an argument the source leaves out is [None]. *)
Inductive artist : Type :=
| Polygon (xy : list (T * T)) (color : string)
| Arc (xy : T * T) (width height : T) (theta1 theta2 : option T)
      (facecolor : string) (lw : T) (edgecolor capstyle : string)
      (zorder : option T)
| Line2D (xdata ydata : list T) (lw : T) (color solid_capstyle : string)
| Rectangle (xy : T * T) (width height : T) (fill : bool) (color : string)
            (zorder : T)
| LineCollection (segments : list ((T * T) * (T * T))) (cmap : string)
                 (norm : T * T) (capstyle : string) (zorder : T)
                 (array : option (list T)) (linewidth : option T).

(** One call on [plt], the figure or the axes. *)
Inductive call : Type :=
| plt_figure (figsize : T * T) (frameon : bool)
| plt_subplots (figsize : T * T) (frameon : bool)
| fig_add_subplot (pos : Z) (aspect : string)
| ax_axis (arg : string)
| ax_add_patch (p : artist)
| ax_add_line (l : artist)
| ax_add_collection (c : artist)
| plt_text (x y : T) (s color fontname : string) (fontsize : T)
           (fontweight ha va : string) (rotation : T)
| plt_plot (xs ys : list T) (fmt color : string) (lw : T)
| plt_xlim (lo hi : T)
| plt_ylim (lo hi : T)
| plt_tight_layout
| plt_savefig (fname : string) (dpi : T) (transparent : option bool)
| plt_show.

(** [lc.set_array(x)] and [lc.set_linewidth(w)]. *)
Definition set_array (c : artist) (x : list T) : artist :=
  match c with
  | LineCollection sg cm nm cs z _ w => LineCollection sg cm nm cs z (Some x) w
  | other => other
  end.

Definition set_linewidth (c : artist) (w : T) : artist :=
  match c with
  | LineCollection sg cm nm cs z ar _ => LineCollection sg cm nm cs z ar (Some w)
  | other => other
  end.

(** What a trace leaves behind: the files it saves, the patches it
    adds, and the axis limits it sets, each in call order. *)
Definition saved_files (tr : list call) : list (string * T) :=
  flat_map (fun c => match c with
                     | plt_savefig f d _ => [(f, d)]
                     | _ => []
                     end) tr.

Definition added_patches (tr : list call) : list artist :=
  flat_map (fun c => match c with
                     | ax_add_patch p => [p]
                     | _ => []
                     end) tr.

Definition xlims (tr : list call) : list (T * T) :=
  flat_map (fun c => match c with
                     | plt_xlim lo hi => [(lo, hi)]
                     | _ => []
                     end) tr.

Definition ylims (tr : list call) : list (T * T) :=
  flat_map (fun c => match c with
                     | plt_ylim lo hi => [(lo, hi)]
                     | _ => []
                     end) tr.
End Matplotlib.

Arguments Polygon {T}.
Arguments Arc {T}.
Arguments Line2D {T}.
Arguments Rectangle {T}.
Arguments LineCollection {T}.
Arguments plt_figure {T}.
Arguments plt_subplots {T}.
Arguments fig_add_subplot {T}.
Arguments ax_axis {T}.
Arguments ax_add_patch {T}.
Arguments ax_add_line {T}.
Arguments ax_add_collection {T}.
Arguments plt_text {T}.
Arguments plt_plot {T}.
Arguments plt_xlim {T}.
Arguments plt_ylim {T}.
Arguments plt_tight_layout {T}.
Arguments plt_savefig {T}.
Arguments plt_show {T}.
Arguments set_array {T}.
Arguments set_linewidth {T}.
Arguments saved_files {T}.
Arguments added_patches {T}.
Arguments xlims {T}.
Arguments ylims {T}.

Section Geometry.
Context {T : Type} `{Scalar T}.
Open Scope np_scope.

(** [np.linspace(start, stop, num)]: [num] evenly spaced samples, the
    last one set to [stop] itself. *)
Definition linspace (start stop : T) (num : nat) : list T :=
  match num with
  | O => []
  | S O => [start]
  | S n =>
      let step := (stop - start) / of_nat n in
      map (fun i => of_nat i * step + start) (seq 0 n) ++ [stop]
  end.

(** The smallest axis-parallel box around a vertex list: the range of
    the first coordinates and the range of the second ones. *)
Definition vmin (u v : T) : T := if le u v then u else v.
Definition vmax (u v : T) : T := if le u v then v else u.

Definition bounding_box (xy : list (T * T)) : option ((T * T) * (T * T)) :=
  match xy with
  | [] => None
  | (x0, y0) :: rest =>
      Some (fold_left (fun bx p => (vmin (fst bx) (fst p), vmax (snd bx) (fst p)))
                      rest (x0, x0),
            fold_left (fun bx p => (vmin (fst bx) (snd p), vmax (snd bx) (snd p)))
                      rest (y0, y0))
  end.
End Geometry.

(** ** logo.py *)

Module Logo.
Section Curve.
Context {T : Type} `{Scalar T}.
Open Scope np_scope.

(** [maximum(x)]: [np.maximum(x, 0)], at one element. *)
Definition maximum (x : T) : T := np_maximum x #0.

(** The argument handed to [np.sqrt] inside [circle], before and after
    the clamp. *)
Definition radicand (x r a : T) (x_lim : T * T) : T :=
  r ** 2 - ((x - a) ** 2) * (x >=? fst x_lim) * (x <=? snd x_lim).

Definition sqrt_arg (x r a : T) (x_lim : T * T) : T :=
  maximum (radicand x r a x_lim).

(** [circle(x, r, a, b, x_lim)], at one element of [x]. *)
Definition circle (x r a b : T) (x_lim : T * T) : T :=
  (b + np_sqrt (sqrt_arg x r a x_lim))
    * (x >=? fst x_lim) * (x <=? snd x_lim).

(** The four summands of [pyts_time_series]. *)
Definition term_p (x : T) : T := circle x #0.2 #0 #0 (#(-0.2), #0.2).
Definition term_y (x : T) : T := - circle x #0.2 #0.4 #0 (#0.2, #0.6).
Definition term_t : T := #0.
Definition bump_s (x : T) : T :=
  circle x #0.125 #0.9 #(-0.025) (#0.775, #0.9).
Definition offset_s (x : T) : T := #0.1 * (x >=? #0.9) * (x <=? #1.2).
Definition term_s (x : T) : T := bump_s x + offset_s x.

(** [pyts_time_series(x)], at one element of [x]. *)
Definition pyts_time_series (x : T) : T :=
  term_p x + term_y x + term_t + term_s x.

(** The same functions on a one-dimensional array: NumPy applies the
    operations element by element and broadcasts the scalars. *)
Definition maximum_arr (x : list T) : list T := map maximum x.
Definition circle_arr (x : list T) (r a b : T) (x_lim : T * T) : list T :=
  map (fun v => circle v r a b x_lim) x.
Definition pyts_time_series_arr (x : list T) : list T :=
  map pyts_time_series x.
End Curve.

Section Render.
Context {T : Type} `{Scalar T}.
Open Scope np_scope.

Definition radius : T := #0.2.
Definition linewidth : T := #20.

(** [Line2D(xs, ys, **line_params)] and [Arc(xy, w, h, ..., **arc_params)]. *)
Definition line (background_color : string) (xs ys : list T) : artist T :=
  Line2D xs ys linewidth background_color "round".

Definition arc (background_color : string) (xy : T * T) (w h : T)
    (theta1 theta2 : option T) : artist T :=
  Arc xy w h theta1 theta2 "none" linewidth background_color "round" None.

(** The sampled curve and the segments joining consecutive samples. *)
Definition curve_x : list T := linspace #(-0.2) #1.2 800.
Definition curve_y : list T := pyts_time_series_arr curve_x.
Definition points : list (T * T) := combine curve_x curve_y.
Definition segments : list ((T * T) * (T * T)) :=
  combine (removelast points) (tl points).

(** Everything [make_pyts_logo] draws, up to and including the limits. *)
Definition logo_drawing (cmap background_color : string) : list (call T) :=
  let line := line background_color in
  let arc := arc background_color in
  [ plt_subplots (#5, #3) false;
    ax_axis "off";
    (* the "p" *)
    ax_add_patch (arc (#0, #0) (#2 * radius) (#2 * radius) None None);
    ax_add_line (line [#(-0.2); #(-0.2)] [#(-0.6); #0.2]);
    (* the "y" *)
    ax_add_line (line [#0.2; #0.2] [#0; #0.15]);
    ax_add_line (line [#0.6; #0.6] [#0.15; #(-0.4)]);
    ax_add_patch (arc (#0.4, #(-0.4)) (#2 * radius) (#2 * radius)
                      (Some #(-180)) (Some #0));
    (* the "t" *)
    ax_add_patch (arc (#0.7, #(-0.3)) radius radius
                      (Some #(-165)) (Some #(-90)));
    ax_add_line (line [#0.5; #0.6] [#0; #0]);
    ax_add_line (line [#0.7; #0.9] [#(-0.4); #(-0.4)]);
    (* the "s" *)
    ax_add_patch (arc (#0.9, #(-0.275)) (#1.25 * radius) (#1.25 * radius)
                      (Some #(-90)) (Some #91));
    ax_add_patch (Arc (#0.9, #(-0.025)) (#1.25 * radius) (#1.25 * radius)
                      (Some #181) (Some #(-90)) "none" linewidth
                      background_color "butt" (Some #2));
    (* the time series *)
    ax_add_collection
      (set_linewidth
         (set_array
            (LineCollection segments cmap (#(-0.2), #1.1) "round" #3
                            None None)
            curve_x)
         linewidth);
    (* the bounding fix *)
    ax_add_patch (Arc (#0.854, #(-0.05)) (#0.5 * radius) (#0.3 * radius)
                      (Some #180) (Some #(-150)) "none" (#1.1 * linewidth)
                      background_color "butt" (Some #4));
    ax_add_patch (Rectangle (#0.8312, #(-0.05)) #0.1 #0.05 true "white" #5);
    plt_xlim #(-0.25) #1.25;
    plt_ylim #(-0.65) #0.25 ].

(** The calls of [make_pyts_logo], in program order. *)
Definition make_pyts_logo (cmap background_color : string)
    (output_file : option string) (dpi : T) : list (call T) :=
  logo_drawing cmap background_color
  ++ [plt_tight_layout]
  ++ match output_file with
     | Some f => [plt_savefig f dpi None]
     | None => []
     end
  ++ [plt_show].
End Render.
End Logo.


(** ** github_ribbon.py *)

Module Ribbon.
Section Render.
Context {T : Type} `{Scalar T}.
Open Scope np_scope.

Definition left : T := #0.3.
Definition center : T := #0.4.
Definition right : T := #0.6.
Definition epsilon : T := #0.005.

(** [list(zip(x, y))], the vertex list handed to [Polygon]. *)
Definition ribbon_xy : list (T * T) :=
  let x := [left; center; right; right] in
  let y := [right; right; center; left] in
  combine x y.

(** Everything [make_github_ribbon] draws, up to and including the
    limits of the axes. *)
Definition ribbon_drawing (background_color text_color text : string)
    (fontsize : T) (figsize : T * T) : list (call T) :=
  [ plt_figure figsize false;
    fig_add_subplot 111 "equal";
    ax_axis "off";
    ax_add_patch (Polygon ribbon_xy background_color);
    plt_text #0.475 #0.475 text text_color "DejaVu Sans" fontsize "heavy"
             "center" "center" #(-45);
    plt_plot [left + epsilon; right] [right; left + epsilon]
             "--" text_color #0.6;
    plt_plot [center - epsilon; right] [right; center - epsilon]
             "--" text_color #0.6;
    plt_xlim left right;
    plt_ylim left right ].

(** The calls of [make_github_ribbon], in program order. *)
Definition make_github_ribbon (background_color text_color text : string)
    (fontsize : T) (figsize : T * T) (output_file : option string)
    (dpi : T) : list (call T) :=
  ribbon_drawing background_color text_color text fontsize figsize
  ++ match output_file with
     | Some f => [plt_savefig f dpi (Some true)]
     | None => []
     end
  ++ [plt_show].
End Render.
End Ribbon.

(** ** Vocabulary of the statements *)

(** The value of a Python [bool] as a real number. *)
Definition ind (c : bool) : R := if c then 1%R else 0%R.







(** The curve written out interval by interval, to be compared with the
    sum of masked arcs that [pyts_time_series] computes. *)
Definition pyts_piecewise (x : R) : R :=
  if Rlt_dec x (-0.2) then 0
  else if Rle_dec x 0.2 then R_sqrt.sqrt (0.2 ^ 2 - x ^ 2)
  else if Rle_dec x 0.6 then - R_sqrt.sqrt (0.2 ^ 2 - (x - 0.4) ^ 2)
  else if Rlt_dec x 0.775 then 0
  else if Rlt_dec x 0.9 then -0.025 + R_sqrt.sqrt (0.125 ^ 2 - (x - 0.9) ^ 2)
  else if Rle_dec x 0.9 then 0.2
  else if Rle_dec x 1.2 then 0.1
  else 0.

(** Binary64 abscissae at which an intermediate value of [circle] is not
    finite: not-a-number itself, the two infinities, and two finite values
    whose square overflows. *)
Definition abscissae_not_finite : list float :=
  [ PrimFloat.nan; PrimFloat.infinity; PrimFloat.neg_infinity;
    1e200%float; (-1e200)%float ].

Definition curve_is_nan_at (xs : list float) : bool :=
  forallb (fun x => PrimFloat.is_nan (Logo.pyts_time_series x)
                    && PrimFloat.is_nan (Logo.term_p x)) xs.

(** What a trace shows: the polylines of its [plot] calls, the anchors of
    its texts, and the view its last [xlim] and [ylim] leave. *)
Definition plotted {T : Type} (tr : list (call T)) : list (list (T * T)) :=
  flat_map (fun c => match c with
                     | plt_plot xs ys _ _ _ => [combine xs ys]
                     | _ => []
                     end) tr.

Definition text_anchors {T : Type} (tr : list (call T)) : list (T * T) :=
  flat_map (fun c => match c with
                     | plt_text x y _ _ _ _ _ _ _ _ => [(x, y)]
                     | _ => []
                     end) tr.

Definition view_of {T : Type} (tr : list (call T)) : option ((T * T) * (T * T)) :=
  match rev (xlims tr), rev (ylims tr) with
  | xl :: _, yl :: _ => Some (xl, yl)
  | _, _ => None
  end.

(** Points that bound an artist: the vertices of a polygon, the ends of a
    line or of a segment, the opposite corners of a rectangle and of the
    box around the full ellipse of an arc. *)
Definition extent {T : Type} `{Scalar T} (a : artist T) : list (T * T) :=
  match a with
  | Polygon xy _ => xy
  | Arc (x, y) w h _ _ _ _ _ _ _ =>
      [ ((x - w / #2)%np, (y - h / #2)%np); ((x + w / #2)%np, (y + h / #2)%np) ]
  | Line2D xs ys _ _ _ => combine xs ys
  | Rectangle (x, y) w h _ _ _ => [ (x, y); ((x + w)%np, (y + h)%np) ]
  | LineCollection sg _ _ _ _ _ _ => flat_map (fun s => [fst s; snd s]) sg
  end.

Definition drawn_points {T : Type} `{Scalar T} (tr : list (call T)) : list (T * T) :=
  flat_map (fun c => match c with
                     | ax_add_patch a | ax_add_line a | ax_add_collection a =>
                         extent a
                     | plt_text x y _ _ _ _ _ _ _ _ => [(x, y)]
                     | plt_plot xs ys _ _ _ => combine xs ys
                     | _ => []
                     end) tr.

Definition within {T : Type} `{Scalar T} (v : (T * T) * (T * T)) (p : T * T) : bool :=
  le (fst (fst v)) (fst p) && le (fst p) (snd (fst v))
  && le (fst (snd v)) (snd p) && le (snd p) (snd (snd v)).

Definition drawn_within_view {T : Type} `{Scalar T} (tr : list (call T)) : bool :=
  match view_of tr with
  | Some v => forallb (within v) (drawn_points tr)
  | None => false
  end.

(** Binary64 checks of the sampling grid of [make_pyts_logo]: the
    abscissae increase strictly from -0.2 to 1.2 and none of them is 0.9. *)
Fixpoint increasing (xs : list float) : bool :=
  match xs with
  | x :: (y :: _) as rest => PrimFloat.ltb x y && increasing rest
  | _ => true
  end.

Definition sampling_grid_ok : bool :=
  increasing Logo.curve_x
  && PrimFloat.eqb (hd PrimFloat.nan Logo.curve_x) (lit (-0.2))
  && PrimFloat.eqb (last Logo.curve_x PrimFloat.nan) (lit 1.2)
  && forallb (fun x => negb (PrimFloat.eqb x (lit 0.9))) Logo.curve_x.

(** x + y, which is constant along the direction of the ribbon. *)
Definition diagonal {T : Type} `{Scalar T} (p : T * T) : T := (fst p + snd p)%np.

(** * Theorems *)

(** ** The ideal carrier computes with real numbers *)

Section IdealFacts.
Open Scope R_scope.

Lemma Rleb_true (x y : R) : x <= y -> Rleb x y = true.
Proof. intro Hxy. unfold Rleb. destruct (Rle_dec x y); [reflexivity | contradiction]. Qed.

Lemma Rleb_false (x y : R) : y < x -> Rleb x y = false.
Proof. intro Hxy. unfold Rleb. destruct (Rle_dec x y); [lra | reflexivity]. Qed.

Lemma lit_real (q : Q) : lit q = real (Q2R q).
Proof. reflexivity. Qed.

Lemma of_bool_real (c : bool) : of_bool c = real (ind c).
Proof. destruct c; cbn; unfold real, Q2R; f_equal; cbn; lra. Qed.

Lemma add_real (x y : R) : (real x + real y)%np = real (x + y).
Proof. reflexivity. Qed.

Lemma sub_real (x y : R) : (real x - real y)%np = real (x - y).
Proof. reflexivity. Qed.

Lemma mul_real (x y : R) : (real x * real y)%np = real (x * y).
Proof. reflexivity. Qed.

Lemma opp_real (x : R) : (- real x)%np = real (- x).
Proof. reflexivity. Qed.

Lemma ge_real (x y : R) : ge (real x) (real y) = Rleb y x.
Proof. reflexivity. Qed.

Lemma le_real (x y : R) : le (real x) (real y) = Rleb x y.
Proof. reflexivity. Qed.

Lemma power_real (x : R) (n : nat) : (real x ** n)%np = real (x ^ n).
Proof.
  induction n as [|n IH].
  - cbn. unfold real, Q2R. f_equal. cbn. lra.
  - cbn [power pow]. rewrite IH. reflexivity.
Qed.

Lemma np_sqrt_real (x : R) : 0 <= x -> np_sqrt (real x) = real (R_sqrt.sqrt x).
Proof.
  intro Hx. cbn. destruct (Rle_dec 0 x); [reflexivity | contradiction].
Qed.

(** Without the clamp the square root of a negative radicand is lost. *)
Lemma np_sqrt_of_negative (x : R) : x < 0 -> np_sqrt (real x) = None.
Proof.
  intro Hx. cbn. destruct (Rle_dec 0 x); [lra | reflexivity].
Qed.

Lemma maximum_real (x : R) : Logo.maximum (real x) = real (Rmax x 0).
Proof.
  unfold Logo.maximum. rewrite lit_real. cbn. unfold real. f_equal. f_equal.
  unfold Q2R. cbn. lra.
Qed.
End IdealFacts.

Create Rewrite HintDb ideal.
#[local] Hint Rewrite lit_real of_bool_real add_real sub_real mul_real opp_real
  ge_real le_real power_real maximum_real : ideal.

Section CurveOnReals.
Open Scope R_scope.
Import Logo.

Lemma sqrt_arg_real (x r a lo hi : R) :
  sqrt_arg (real x) (real r) (real a) (real lo, real hi) =
  real (Rmax (r ^ 2 - (x - a) ^ 2 * ind (Rleb lo x) * ind (Rleb x hi)) 0).
Proof.
  unfold sqrt_arg, radicand. cbn [fst snd].
  autorewrite with ideal. reflexivity.
Qed.

Lemma circle_real (x r a b lo hi : R) :
  circle (real x) (real r) (real a) (real b) (real lo, real hi) =
  real ((b + R_sqrt.sqrt (Rmax (r ^ 2 - (x - a) ^ 2 * ind (Rleb lo x) * ind (Rleb x hi)) 0))
        * ind (Rleb lo x) * ind (Rleb x hi)).
Proof.
  unfold circle. rewrite sqrt_arg_real. cbn [fst snd].
  rewrite np_sqrt_real by apply Rmax_r.
  autorewrite with ideal. reflexivity.
Qed.
End CurveOnReals.

Section CurveClaims.
Open Scope R_scope.
Import Logo.

Lemma circle_outside (x r a b lo hi : R) :
  x < lo \/ hi < x ->
  circle (real x) (real r) (real a) (real b) (real lo, real hi) = real 0.
Proof.
  intros Hout. rewrite circle_real.
  destruct Hout as [Hlo | Hhi].
  - rewrite (Rleb_false lo x Hlo). cbn [ind]. unfold real. f_equal. ring.
  - rewrite (Rleb_false x hi Hhi). cbn [ind]. unfold real. f_equal. ring.
Qed.

Lemma circle_inside (x r a b lo hi : R) :
  lo <= x <= hi ->
  circle (real x) (real r) (real a) (real b) (real lo, real hi) =
  real (b + R_sqrt.sqrt (Rmax (r ^ 2 - (x - a) ^ 2) 0)).
Proof.
  intros [Hlo Hhi]. rewrite circle_real.
  rewrite (Rleb_true lo x Hlo), (Rleb_true x hi Hhi). cbn [ind].
  unfold real. f_equal. rewrite !Rmult_1_r. reflexivity.
Qed.

Lemma sqrt_clamp_eq (e v : R) :
  0 <= v -> v * v = e -> R_sqrt.sqrt (Rmax e 0) = v.
Proof.
  intros Hv He. rewrite Rmax_left by nra. apply sqrt_lem_1; nra.
Qed.


(** The summands on a real argument, region by region. *)
Lemma term_p_outside (x : R) : x < -0.2 \/ 0.2 < x -> term_p (real x) = real 0.
Proof.
  intro Hx. unfold term_p. rewrite !lit_real. apply circle_outside.
  unfold Q2R; cbn. lra.
Qed.

Lemma term_y_outside (x : R) : x < 0.2 \/ 0.6 < x -> term_y (real x) = real 0.
Proof.
  intro Hx. unfold term_y. rewrite !lit_real. rewrite circle_outside.
  - rewrite opp_real. unfold real. f_equal. ring.
  - unfold Q2R; cbn. lra.
Qed.

Lemma bump_s_outside (x : R) : x < 0.775 \/ 0.9 < x -> bump_s (real x) = real 0.
Proof.
  intro Hx. unfold bump_s. rewrite !lit_real. apply circle_outside.
  unfold Q2R; cbn. lra.
Qed.

Lemma offset_s_real (x : R) :
  offset_s (real x) = real (0.1 * ind (Rleb 0.9 x) * ind (Rleb x 1.2)).
Proof.
  unfold offset_s. autorewrite with ideal. reflexivity.
Qed.

Lemma offset_s_outside (x : R) : x < 0.9 \/ 1.2 < x -> offset_s (real x) = real 0.
Proof.
  intro Hx. rewrite offset_s_real. unfold real. f_equal.
  destruct Hx as [Hlo | Hhi].
  - rewrite (Rleb_false 0.9 x Hlo). cbn [ind]. ring.
  - rewrite (Rleb_false x 1.2 Hhi). cbn [ind]. ring.
Qed.

Lemma offset_s_inside (x : R) : 0.9 <= x <= 1.2 -> offset_s (real x) = real 0.1.
Proof.
  intros [Hlo Hhi]. rewrite offset_s_real.
  rewrite (Rleb_true 0.9 x Hlo), (Rleb_true x 1.2 Hhi). cbn [ind].
  unfold real. f_equal. ring.
Qed.

Lemma term_t_real : @term_t ideal _ = real 0.
Proof. unfold term_t. rewrite lit_real. unfold real, Q2R. f_equal. cbn. lra. Qed.

Lemma term_p_at_0 : term_p (real 0) = real 0.2.
Proof.
  unfold term_p. rewrite !lit_real. rewrite circle_inside.
  - unfold real. f_equal. rewrite (sqrt_clamp_eq _ 0.2); unfold Q2R; cbn; lra.
  - unfold Q2R; cbn. lra.
Qed.

Lemma term_p_at_0_2 : term_p (real 0.2) = real 0.
Proof.
  unfold term_p. rewrite !lit_real. rewrite circle_inside.
  - unfold real. f_equal. rewrite (sqrt_clamp_eq _ 0); unfold Q2R; cbn; lra.
  - unfold Q2R; cbn. lra.
Qed.

Lemma term_y_at_0_2 : term_y (real 0.2) = real 0.
Proof.
  unfold term_y. rewrite !lit_real. rewrite circle_inside.
  - rewrite opp_real. unfold real. f_equal.
    rewrite (sqrt_clamp_eq _ 0); unfold Q2R; cbn; lra.
  - unfold Q2R; cbn. lra.
Qed.

Lemma bump_s_at_0_9 : bump_s (real 0.9) = real 0.1.
Proof.
  unfold bump_s. rewrite !lit_real. rewrite circle_inside.
  - unfold real. f_equal. rewrite (sqrt_clamp_eq _ 0.125); unfold Q2R; cbn; lra.
  - unfold Q2R; cbn. lra.
Qed.

(** Inside its interval each arc is the upper half of its circle. *)
Lemma term_p_inside (x : R) :
  -0.2 <= x <= 0.2 -> term_p (real x) = real (R_sqrt.sqrt (0.2 ^ 2 - x ^ 2)).
Proof.
  intro Hx. unfold term_p. rewrite !lit_real. rewrite circle_inside by exact Hx.
  unfold real. f_equal. rewrite Rmax_left by (unfold Q2R; cbn; nra).
  replace (0.2 ^ 2 - (x - Q2R 0) ^ 2) with (0.2 ^ 2 - x ^ 2)
    by (unfold Q2R; cbn; lra).
  unfold Q2R; cbn; lra.
Qed.

Lemma term_y_inside (x : R) :
  0.2 <= x <= 0.6 ->
  term_y (real x) = real (- R_sqrt.sqrt (0.2 ^ 2 - (x - 0.4) ^ 2)).
Proof.
  intro Hx. unfold term_y. rewrite !lit_real. rewrite circle_inside by exact Hx.
  rewrite opp_real. unfold real. f_equal.
  rewrite Rmax_left by (unfold Q2R; cbn; nra).
  unfold Q2R; cbn; lra.
Qed.

Lemma bump_s_inside (x : R) :
  0.775 <= x <= 0.9 ->
  bump_s (real x) = real (-0.025 + R_sqrt.sqrt (0.125 ^ 2 - (x - 0.9) ^ 2)).
Proof.
  intro Hx. unfold bump_s. rewrite !lit_real. rewrite circle_inside by exact Hx.
  unfold real. f_equal. rewrite Rmax_left by (unfold Q2R; cbn; nra).
  reflexivity.
Qed.

Lemma sqrt_small (e eps : R) :
  0 <= e -> 0 < eps -> e < eps * eps -> 0 <= R_sqrt.sqrt e < eps.
Proof.
  intros He Heps Hlt. split; [apply sqrt_pos |].
  rewrite <- (sqrt_square eps) by lra.
  apply sqrt_lt_1_alt. lra.
Qed.

Lemma pyts_time_series_real (x : ideal) (p y s0 s1 : R) :
  term_p x = real p -> term_y x = real y ->
  bump_s x = real s0 -> offset_s x = real s1 ->
  pyts_time_series x = real (p + y + 0 + (s0 + s1)).
Proof.
  intros Hp Hy Hb Ho. unfold pyts_time_series, term_s.
  rewrite Hp, Hy, Hb, Ho, term_t_real. reflexivity.
Qed.


Lemma pyts_time_series_at_0_9 : pyts_time_series (real 0.9) = real 0.2.
Proof.
  rewrite (pyts_time_series_real _ 0 0 0.1 0.1).
  - unfold real. f_equal. lra.
  - apply term_p_outside. lra.
  - apply term_y_outside. lra.
  - exact bump_s_at_0_9.
  - apply offset_s_inside. lra.
Qed.

(** C1: [pyts_time_series] at x = 0 is exactly 0.2: the first bump
    contributes sqrt(0.2^2 - 0) = 0.2 and every other summand 0.  Stated
    for exact real arithmetic and, with Python's [==], for binary64. *)
Theorem pyts_time_series_at_0 :
  (term_p (real 0) = real 0.2 /\ term_y (real 0) = real 0 /\
   @term_t ideal _ = real 0 /\ term_s (real 0) = real 0 /\
   pyts_time_series (real 0) = real 0.2) /\
  (PrimFloat.eqb (term_p (T:=float) (lit 0)) (lit 0.2) = true /\
   PrimFloat.eqb (term_y (T:=float) (lit 0)) (lit 0) = true /\
   PrimFloat.eqb (@term_t float _) (lit 0) = true /\
   PrimFloat.eqb (term_s (T:=float) (lit 0)) (lit 0) = true /\
   PrimFloat.eqb (pyts_time_series (T:=float) (lit 0)) (lit 0.2) = true).
Proof.
  assert (Hy : term_y (real 0) = real 0) by (apply term_y_outside; lra).
  assert (Hb : bump_s (real 0) = real 0) by (apply bump_s_outside; lra).
  assert (Ho : offset_s (real 0) = real 0) by (apply offset_s_outside; lra).
  split.
  - repeat split.
    + exact term_p_at_0.
    + exact Hy.
    + exact term_t_real.
    + unfold term_s. rewrite Hb, Ho. unfold real. cbn. f_equal. lra.
    + rewrite (pyts_time_series_real _ _ _ _ _ term_p_at_0 Hy Hb Ho).
      unfold real. f_equal. lra.
  - repeat split; vm_compute; reflexivity.
Qed.

(** C2, as the claim states it, fails: at x = 0.9 the sum is 0.2, not
    0.125, in exact arithmetic and in binary64 alike. *)
Lemma pyts_time_series_at_0_9_is_not_0_125 :
  ~ (pyts_time_series (real 0.9) = real 0.125 /\
     pyts_time_series (real 1.0) = real 0.1) /\
  ~ (PrimFloat.eqb (pyts_time_series (T:=float) (lit 0.9)) (lit 0.125) = true /\
     PrimFloat.eqb (pyts_time_series (T:=float) (lit 1.0)) (lit 0.1) = true).
Proof.
  split.
  - intros [H09 _]. rewrite pyts_time_series_at_0_9 in H09.
    injection H09 as H09. lra.
  - intros [H09 _]. vm_compute in H09. discriminate H09.
Qed.

(** C2, amended: at x = 0.9 the s-bump contributes -0.025 + 0.125 = 0.1
    and the p and y summands contribute 0; at x = 1.0 only the offset is
    active and [pyts_time_series] is 0.1. *)
Theorem pyts_time_series_s_bump_and_offset :
  (bump_s (real 0.9) = real 0.1 /\
   term_p (real 0.9) = real 0 /\ term_y (real 0.9) = real 0 /\
   bump_s (real 1.0) = real 0 /\ offset_s (real 1.0) = real 0.1 /\
   pyts_time_series (real 1.0) = real 0.1) /\
  (PrimFloat.eqb (bump_s (T:=float) (lit 0.9)) (lit 0.1) = true /\
   PrimFloat.eqb (term_p (T:=float) (lit 0.9)) (lit 0) = true /\
   PrimFloat.eqb (term_y (T:=float) (lit 0.9)) (lit 0) = true /\
   PrimFloat.eqb (bump_s (T:=float) (lit 1.0)) (lit 0) = true /\
   PrimFloat.eqb (offset_s (T:=float) (lit 1.0)) (lit 0.1) = true /\
   PrimFloat.eqb (pyts_time_series (T:=float) (lit 1.0)) (lit 0.1) = true).
Proof.
  assert (Hp : term_p (real 1.0) = real 0) by (apply term_p_outside; lra).
  assert (Hy : term_y (real 1.0) = real 0) by (apply term_y_outside; lra).
  assert (Hb : bump_s (real 1.0) = real 0) by (apply bump_s_outside; lra).
  assert (Ho : offset_s (real 1.0) = real 0.1) by (apply offset_s_inside; lra).
  split.
  - repeat split.
    + exact bump_s_at_0_9.
    + apply term_p_outside. lra.
    + apply term_y_outside. lra.
    + exact Hb.
    + exact Ho.
    + rewrite (pyts_time_series_real _ _ _ _ _ Hp Hy Hb Ho).
      unfold real. f_equal. lra.
  - repeat split; vm_compute; reflexivity.
Qed.



(** The sum is continuous at x = 0.2, where it takes the value 0. *)
Lemma pyts_time_series_continuous_at_0_2 (eps : R) :
  0 < eps ->
  exists delta : R, 0 < delta /\
    forall x : R, Rabs (x - 0.2) < delta ->
      exists y : R, pyts_time_series (real x) = real y /\ Rabs y < eps.
Proof.
  intro Heps. exists (Rmin 0.1 (eps * eps)). split.
  - apply Rmin_glb_lt; nra.
  - intros x Hx.
    assert (Hx1 : Rabs (x - 0.2) < 0.1)
      by (eapply Rlt_le_trans; [exact Hx | apply Rmin_l]).
    assert (Hx2 : Rabs (x - 0.2) < eps * eps)
      by (eapply Rlt_le_trans; [exact Hx | apply Rmin_r]).
    apply Rabs_def2 in Hx1. unfold Rabs in Hx2.
    assert (Hb : bump_s (real x) = real 0) by (apply bump_s_outside; lra).
    assert (Ho : offset_s (real x) = real 0) by (apply offset_s_outside; lra).
    destruct (Rle_lt_dec x 0.2) as [Hle | Hgt].
    + destruct (Rle_lt_or_eq_dec _ _ Hle) as [Hlt | Heq].
      * assert (Hp := term_p_inside x ltac:(lra)).
        assert (Hy : term_y (real x) = real 0) by (apply term_y_outside; lra).
        eexists. split; [apply (pyts_time_series_real _ _ _ _ _ Hp Hy Hb Ho) |].
        destruct (Rcase_abs (x - 0.2)) as [_ | Hge]; [| lra].
        destruct (sqrt_small (0.2 ^ 2 - x ^ 2) eps) as [Hs0 Hs1]; [nra | lra | nra |].
        rewrite Rabs_pos_eq; lra.
      * subst x.
        eexists. split;
          [apply (pyts_time_series_real _ _ _ _ _ term_p_at_0_2 term_y_at_0_2 Hb Ho) |].
        rewrite Rabs_pos_eq; lra.
    + assert (Hp : term_p (real x) = real 0) by (apply term_p_outside; lra).
      assert (Hy := term_y_inside x ltac:(lra)).
      eexists. split; [apply (pyts_time_series_real _ _ _ _ _ Hp Hy Hb Ho) |].
      destruct (Rcase_abs (x - 0.2)) as [Hneg | _]; [lra |].
      destruct (sqrt_small (0.2 ^ 2 - (x - 0.4) ^ 2) eps) as [Hs0 Hs1];
        [nra | lra | nra |].
      rewrite Rabs_left1; lra.
Qed.

(** C4: the curve is continuous where the first two arcs meet: at
    x = 0.2 the first arc, the second arc and the sum are all 0 (in exact
    arithmetic and, with Python's [==], in binary64), and over the reals
    the sum tends to that value as x tends to 0.2 from either side. *)
Theorem pyts_time_series_continuous_at_boundary :
  (term_p (real 0.2) = real 0 /\ term_y (real 0.2) = real 0 /\
   pyts_time_series (real 0.2) = real 0) /\
  (PrimFloat.eqb (term_p (T:=float) (lit 0.2)) (lit 0) = true /\
   PrimFloat.eqb (term_y (T:=float) (lit 0.2)) (lit 0) = true /\
   PrimFloat.eqb (pyts_time_series (T:=float) (lit 0.2)) (lit 0) = true) /\
  (forall eps : R, 0 < eps ->
     exists delta : R, 0 < delta /\
       forall x : R, Rabs (x - 0.2) < delta ->
         exists y : R, pyts_time_series (real x) = real y /\ Rabs y < eps).
Proof.
  split; [| split].
  - repeat split.
    + exact term_p_at_0_2.
    + exact term_y_at_0_2.
    + rewrite (pyts_time_series_real _ 0 0 0 0).
      * unfold real. f_equal. lra.
      * exact term_p_at_0_2.
      * exact term_y_at_0_2.
      * apply bump_s_outside. lra.
      * apply offset_s_outside. lra.
  - repeat split; vm_compute; reflexivity.
  - exact pyts_time_series_continuous_at_0_2.
Qed.

Lemma pyts_time_series_continuous_at_boundary_witness :
  0 < 1 /\
  exists delta : R, 0 < delta /\
    forall x : R, Rabs (x - 0.2) < delta ->
      exists y : R, pyts_time_series (real x) = real y /\ Rabs y < 1.
Proof.
  split; [lra |].
  apply (proj2 (proj2 pyts_time_series_continuous_at_boundary) 1). lra.
Defined.

(** C7: [maximum] is the element-wise maximum of its array and 0: the
    result has the shape of the input and each entry is the larger of
    the input entry and 0; [maximum([-1, 0, 2])] is [[0, 0, 2]]. *)
Theorem maximum_elementwise :
  maximum_arr [real (-1); real 0; real 2] = [real 0; real 0; real 2] /\
  maximum_arr (T:=float) [lit (-1); lit 0; lit 2] = [lit 0; lit 0; lit 2] /\
  (forall xs : list R,
     maximum_arr (map real xs) = map (fun v => real (Rmax v 0)) xs) /\
  (forall xs : list R,
     Forall2 (fun v u => exists y : R,
                u = real y /\ v <= y /\ 0 <= y /\ (y = v \/ y = 0))
             xs (maximum_arr (map real xs))).
Proof.
  assert (Hmap : forall xs : list R,
             maximum_arr (map real xs) = map (fun v => real (Rmax v 0)) xs).
  { intro xs. unfold maximum_arr. rewrite map_map. apply map_ext.
    intro v. apply maximum_real. }
  split; [| split; [| split]].
  - change [real (-1); real 0; real 2] with (map real [-1; 0; 2]).
    rewrite Hmap. cbn [map]. unfold real.
    rewrite (Rmax_right (-1) 0), (Rmax_left 0 0), (Rmax_left 2 0) by lra.
    reflexivity.
  - vm_compute. reflexivity.
  - exact Hmap.
  - intro xs. rewrite Hmap. induction xs as [|v xs IH]; cbn [map].
    + constructor.
    + constructor; [| exact IH].
      exists (Rmax v 0). split; [reflexivity |].
      split; [apply Rmax_l |]. split; [apply Rmax_r |].
      unfold Rmax. destruct (Rle_dec v 0); [right | left]; reflexivity.
Qed.




End CurveClaims.

(** ** The drawing routines *)

Section RenderClaims.
Import Logo.

Lemma saved_files_app {T : Type} (tr1 tr2 : list (call T)) :
  saved_files (tr1 ++ tr2) = saved_files tr1 ++ saved_files tr2.
Proof. unfold saved_files. apply flat_map_app. Qed.

Lemma logo_drawing_saves_nothing {T : Type} `{Scalar T}
    (cmap background_color : string) :
  saved_files (logo_drawing cmap background_color) = [].
Proof. reflexivity. Qed.

(** C5, as the claim states it, fails: the polygon that
    [make_github_ribbon] adds does not have three vertices. *)
Lemma ribbon_polygon_is_not_a_triangle :
  ~ (forall (xy : list (float * float)) (color : string),
       In (Polygon xy color)
          (added_patches
             (Ribbon.make_github_ribbon "darkslategray" "white"
                "Fork me on GitHub" (lit 14) (lit 3, lit 3) None (lit 400))) ->
       List.length xy = 3%nat).
Proof.
  intro Hthree.
  specialize (Hthree Ribbon.ribbon_xy "darkslategray"%string (or_introl eq_refl)).
  discriminate Hthree.
Qed.

(** C5, amended: the shape is the source's "trapezoid": the one patch
    [make_github_ribbon] adds is a polygon of exactly four vertices,
    (left, right), (center, right), (right, center) and (right, left),
    with left = 0.3, center = 0.4 and right = 0.6, in the background
    colour. *)
Theorem ribbon_polygon_is_a_quadrilateral {T : Type} `{Scalar T}
    (background_color text_color text : string) (fontsize : T)
    (figsize : T * T) (output_file : option string) (dpi : T) :
  added_patches
    (Ribbon.make_github_ribbon background_color text_color text fontsize
       figsize output_file dpi) =
  [Polygon [(lit 0.3, lit 0.6); (lit 0.4, lit 0.6);
            (lit 0.6, lit 0.4); (lit 0.6, lit 0.3)] background_color] /\
  Ribbon.ribbon_xy =
    [(Ribbon.left, Ribbon.right); (Ribbon.center, Ribbon.right);
     (Ribbon.right, Ribbon.center); (Ribbon.right, Ribbon.left)] /\
  List.length (Ribbon.ribbon_xy (T:=T)) = 4%nat.
Proof.
  split; [| split; reflexivity].
  destruct output_file; reflexivity.
Qed.

(** C6: both routines save an image exactly when [output_file] is not
    None.  With None the trace holds no [savefig]: it is the drawing
    followed by [show].  With a path the one [savefig] carries that path
    and the given dpi and is the call just before [show]. *)
Theorem saves_iff_output_file {T : Type} `{Scalar T}
    (background_color text_color text cmap : string) (fontsize : T)
    (figsize : T * T) (output_file : option string) (dpi : T) :
  let drawn_ribbon :=
    Ribbon.ribbon_drawing background_color text_color text fontsize figsize in
  let drawn_logo := logo_drawing cmap background_color in
  let ribbon :=
    Ribbon.make_github_ribbon background_color text_color text fontsize
      figsize output_file dpi in
  let logo := make_pyts_logo cmap background_color output_file dpi in
  (saved_files ribbon <> [] <-> output_file <> None) /\
  (saved_files logo <> [] <-> output_file <> None) /\
  saved_files drawn_ribbon = [] /\ saved_files drawn_logo = [] /\
  match output_file with
  | None =>
      saved_files ribbon = [] /\ saved_files logo = [] /\
      ribbon = drawn_ribbon ++ [plt_show] /\
      logo = drawn_logo ++ [plt_tight_layout; plt_show]
  | Some f =>
      saved_files ribbon = [(f, dpi)] /\ saved_files logo = [(f, dpi)] /\
      ribbon = drawn_ribbon ++ [plt_savefig f dpi (Some true); plt_show] /\
      logo = drawn_logo
             ++ [plt_tight_layout; plt_savefig f dpi None; plt_show]
  end.
Proof.
  intros drawn_ribbon drawn_logo ribbon logo.
  subst drawn_ribbon drawn_logo ribbon logo.
  unfold Ribbon.make_github_ribbon, make_pyts_logo.
  rewrite !saved_files_app, logo_drawing_saves_nothing.
  destruct output_file as [f |]; cbn [app saved_files flat_map].
  - split; [split; intros _; discriminate |].
    split; [split; intros _; discriminate |].
    repeat split; reflexivity.
  - split; [split; intro Hs; exfalso; apply Hs; reflexivity |].
    split; [split; intro Hs; exfalso; apply Hs; reflexivity |].
    repeat split; reflexivity.
Qed.

(** C8: [make_github_ribbon] sets the limits of both axes once, to
    (left, right) = (0.3, 0.6), and that square is the bounding box of
    the ribbon polygon. *)
Theorem ribbon_view_is_bounding_box :
  (forall (T : Type) (S : Scalar T)
          (background_color text_color text : string) (fontsize : T)
          (figsize : T * T) (output_file : option string) (dpi : T),
     let ribbon :=
       Ribbon.make_github_ribbon background_color text_color text fontsize
         figsize output_file dpi in
     xlims ribbon = [(lit 0.3, lit 0.6)] /\
     ylims ribbon = [(lit 0.3, lit 0.6)]) /\
  bounding_box (Ribbon.ribbon_xy (T:=ideal)) =
    Some ((real 0.3, real 0.6), (real 0.3, real 0.6)) /\
  bounding_box (Ribbon.ribbon_xy (T:=float)) =
    Some ((lit 0.3, lit 0.6), (lit 0.3, lit 0.6)).
Proof.
  split; [| split].
  - intros T S bg tc text fs figsize output_file dpi ribbon. subst ribbon.
    destruct output_file; split; reflexivity.
  - unfold bounding_box, Ribbon.ribbon_xy, Ribbon.left, Ribbon.center,
      Ribbon.right, vmin, vmax.
    cbn [combine fold_left fst snd].
    rewrite !lit_real.
    repeat (rewrite le_real;
            first [ rewrite Rleb_true by (unfold Q2R; cbn; lra)
                  | rewrite Rleb_false by (unfold Q2R; cbn; lra) ]).
    reflexivity.
  - vm_compute. reflexivity.
Qed.
End RenderClaims.

(** ** More on the arcs and the curve *)

Section CurveExtras.
Open Scope R_scope.
Import Logo.

Lemma Rleb_ext (x y u v : R) : (x <= y <-> u <= v) -> Rleb x y = Rleb u v.
Proof.
  intro Hiff. unfold Rleb.
  destruct (Rle_dec x y) as [Hxy | Hxy], (Rle_dec u v) as [Huv | Huv];
    try reflexivity; exfalso; tauto.
Qed.

Lemma sqrt_bound (e v : R) : 0 <= v -> e <= v * v -> 0 <= R_sqrt.sqrt e <= v.
Proof.
  intros Hv He. split; [apply sqrt_pos |].
  rewrite <- (sqrt_square v) by exact Hv.
  apply sqrt_le_1_alt. exact He.
Qed.






(** X3: an arc does not depend on the sign of the radius, and over an
    interval centred on a it is symmetric about the vertical line x = a. *)
Theorem circle_symmetries (r a b d w x lo hi : R) :
  circle (real x) (real (- r)) (real a) (real b) (real lo, real hi) =
  circle (real x) (real r) (real a) (real b) (real lo, real hi) /\
  circle (real (a - d)) (real r) (real a) (real b) (real (a - w), real (a + w)) =
  circle (real (a + d)) (real r) (real a) (real b) (real (a - w), real (a + w)).
Proof.
  split.
  - rewrite !circle_real. replace ((- r) ^ 2) with (r ^ 2) by ring. reflexivity.
  - rewrite !circle_real.
    rewrite (Rleb_ext (a - w) (a - d) (a + d) (a + w)) by (split; intro; lra).
    rewrite (Rleb_ext (a - d) (a + w) (a - w) (a + d)) by (split; intro; lra).
    replace ((a - d - a) ^ 2) with ((a + d - a) ^ 2) by ring.
    unfold real. f_equal.
    set (i1 := ind (Rleb (a - w) (a + d))). set (i2 := ind (Rleb (a + d) (a + w))).
    replace ((a + d - a) ^ 2 * i2 * i1) with ((a + d - a) ^ 2 * i1 * i2) by ring.
    ring.
Qed.
Lemma pyts_time_series_piecewise_at (x : R) :
  pyts_time_series (real x) = real (pyts_piecewise x).
Proof.
  unfold pyts_piecewise.
  destruct (Rlt_dec x (-0.2)) as [H1 | H1].
  { rewrite (pyts_time_series_real _ _ _ _ _
               (term_p_outside x ltac:(lra)) (term_y_outside x ltac:(lra))
               (bump_s_outside x ltac:(lra)) (offset_s_outside x ltac:(lra))).
    unfold real. f_equal. lra. }
  destruct (Rle_dec x 0.2) as [H2 | H2].
  { assert (Hy : term_y (real x) = real 0).
    { destruct (Rle_lt_or_eq_dec _ _ H2) as [Hlt | Heq].
      - apply term_y_outside. lra.
      - subst x. exact term_y_at_0_2. }
    rewrite (pyts_time_series_real _ _ _ _ _
               (term_p_inside x ltac:(lra)) Hy
               (bump_s_outside x ltac:(lra)) (offset_s_outside x ltac:(lra))).
    unfold real. f_equal. lra. }
  destruct (Rle_dec x 0.6) as [H3 | H3].
  { rewrite (pyts_time_series_real _ _ _ _ _
               (term_p_outside x ltac:(lra)) (term_y_inside x ltac:(lra))
               (bump_s_outside x ltac:(lra)) (offset_s_outside x ltac:(lra))).
    unfold real. f_equal. lra. }
  destruct (Rlt_dec x 0.775) as [H4 | H4].
  { rewrite (pyts_time_series_real _ _ _ _ _
               (term_p_outside x ltac:(lra)) (term_y_outside x ltac:(lra))
               (bump_s_outside x ltac:(lra)) (offset_s_outside x ltac:(lra))).
    unfold real. f_equal. lra. }
  destruct (Rlt_dec x 0.9) as [H5 | H5].
  { rewrite (pyts_time_series_real _ _ _ _ _
               (term_p_outside x ltac:(lra)) (term_y_outside x ltac:(lra))
               (bump_s_inside x ltac:(lra)) (offset_s_outside x ltac:(lra))).
    unfold real. f_equal. lra. }
  destruct (Rle_dec x 0.9) as [H6 | H6].
  { assert (x = 0.9) by lra. subst x. exact pyts_time_series_at_0_9. }
  destruct (Rle_dec x 1.2) as [H7 | H7].
  { rewrite (pyts_time_series_real _ _ _ _ _
               (term_p_outside x ltac:(lra)) (term_y_outside x ltac:(lra))
               (bump_s_outside x ltac:(lra)) (offset_s_inside x ltac:(lra))).
    unfold real. f_equal. lra. }
  rewrite (pyts_time_series_real _ _ _ _ _
             (term_p_outside x ltac:(lra)) (term_y_outside x ltac:(lra))
             (bump_s_outside x ltac:(lra)) (offset_s_outside x ltac:(lra))).
  unfold real. f_equal. lra.
Qed.


Lemma pyts_piecewise_range (x : R) : -0.2 <= pyts_piecewise x <= 0.2.
Proof.
  assert (Hsq : forall d v : R, 0 <= v -> v ^ 2 - d ^ 2 <= v * v).
  { intros d v _. pose proof (pow2_ge_0 d). lra. }
  unfold pyts_piecewise.
  destruct (Rlt_dec x (-0.2)); [lra |].
  destruct (Rle_dec x 0.2).
  { destruct (sqrt_bound (0.2 ^ 2 - x ^ 2) 0.2); [lra | apply Hsq; lra | lra]. }
  destruct (Rle_dec x 0.6).
  { destruct (sqrt_bound (0.2 ^ 2 - (x - 0.4) ^ 2) 0.2);
      [lra | apply Hsq; lra | lra]. }
  destruct (Rlt_dec x 0.775); [lra |].
  destruct (Rlt_dec x 0.9).
  { destruct (sqrt_bound (0.125 ^ 2 - (x - 0.9) ^ 2) 0.125);
      [lra | apply Hsq; lra | lra]. }
  destruct (Rle_dec x 0.9); [lra |].
  destruct (Rle_dec x 1.2); lra.
Qed.



(** X6: the curve is not continuous everywhere.  At x = 0.775 it is
    -0.025 while it is 0 just to the left, and at x = 0.9, where the arc
    of the s and the offset are both active, it is 0.2 while it is 0.1
    just to the right: every neighbourhood of either abscissa holds a
    point where the curve is at least 0.025, respectively 0.1, away. *)
Theorem pyts_time_series_jumps (delta : R) :
  0 < delta ->
  pyts_time_series (real 0.775) = real (-0.025) /\
  pyts_time_series (real 0.9) = real 0.2 /\
  (exists x : R, Rabs (x - 0.775) < delta /\
     pyts_time_series (real x) = real 0) /\
  (exists x : R, Rabs (x - 0.9) < delta /\
     pyts_time_series (real x) = real 0.1).
Proof.
  intro Hd.
  split; [| split; [exact pyts_time_series_at_0_9 | split]].
  - rewrite pyts_time_series_piecewise_at. unfold pyts_piecewise, real. f_equal.
    destruct (Rlt_dec 0.775 (-0.2)); [lra |].
    destruct (Rle_dec 0.775 0.2); [lra |].
    destruct (Rle_dec 0.775 0.6); [lra |].
    destruct (Rlt_dec 0.775 0.775); [lra |].
    destruct (Rlt_dec 0.775 0.9); [| lra].
    replace (0.125 ^ 2 - (0.775 - 0.9) ^ 2) with 0 by lra.
    rewrite sqrt_0. lra.
  - exists (0.775 - Rmin (delta / 2) 0.1).
    assert (Hm : 0 < Rmin (delta / 2) 0.1 <= delta / 2 /\ Rmin (delta / 2) 0.1 <= 0.1).
    { split; [split; [apply Rmin_glb_lt; lra | apply Rmin_l] | apply Rmin_r]. }
    split.
    + rewrite Rabs_left1 by lra. lra.
    + rewrite pyts_time_series_piecewise_at. unfold pyts_piecewise, real. f_equal.
      destruct (Rlt_dec _ (-0.2)); [lra |].
      destruct (Rle_dec _ 0.2); [lra |].
      destruct (Rle_dec _ 0.6); [lra |].
      destruct (Rlt_dec _ 0.775); [reflexivity | lra].
  - exists (0.9 + Rmin (delta / 2) 0.1).
    assert (Hm : 0 < Rmin (delta / 2) 0.1 <= delta / 2 /\ Rmin (delta / 2) 0.1 <= 0.1).
    { split; [split; [apply Rmin_glb_lt; lra | apply Rmin_l] | apply Rmin_r]. }
    split.
    + rewrite Rabs_pos_eq by lra. lra.
    + rewrite pyts_time_series_piecewise_at. unfold pyts_piecewise, real. f_equal.
      destruct (Rlt_dec _ (-0.2)); [lra |].
      destruct (Rle_dec _ 0.2); [lra |].
      destruct (Rle_dec _ 0.6); [lra |].
      destruct (Rlt_dec _ 0.775); [lra |].
      destruct (Rlt_dec _ 0.9); [lra |].
      destruct (Rle_dec _ 0.9); [lra |].
      destruct (Rle_dec _ 1.2); [reflexivity | lra].
Qed.

Lemma pyts_time_series_jumps_witness :
  0 < 1 /\
  exists x : R, Rabs (x - 0.9) < 1 /\ pyts_time_series (real x) = real 0.1.
Proof.
  assert (Hd : 0 < 1) by lra.
  split; [exact Hd |].
  exact (proj2 (proj2 (proj2 (pyts_time_series_jumps 1 Hd)))).
Defined.
(** X7: on every binary64 value, not-a-number included, [maximum] is
    idempotent, returns not-a-number exactly when it is given one, and
    otherwise returns a value that is not below 0; on arrays of either
    carrier a second application changes nothing. *)
Theorem maximum_idempotent :
  (forall x : float,
     maximum (maximum x) = maximum x /\
     PrimFloat.is_nan (maximum x) = PrimFloat.is_nan x /\
     PrimFloat.is_nan x || PrimFloat.leb (lit 0) (maximum x) = true) /\
  (forall xs : list float, maximum_arr (maximum_arr xs) = maximum_arr xs) /\
  (forall xs : list ideal, maximum_arr (maximum_arr xs) = maximum_arr xs).
Proof.
  assert (Hfloat : forall x : float, maximum (maximum x) = maximum x /\
            PrimFloat.is_nan (maximum x) = PrimFloat.is_nan x /\
            PrimFloat.is_nan x || PrimFloat.leb (lit 0) (maximum x) = true).
  { intro x. unfold maximum. cbn [np_maximum float_scalar]. unfold float_maximum.
    cbn [lit float_scalar].
    destruct (PrimFloat.leb (float_of_Q 0) x) eqn:Hle;
      destruct (PrimFloat.is_nan x) eqn:Hnan; cbn [orb];
      rewrite ?Hle, ?Hnan; cbn [orb]; repeat split; try reflexivity;
      try assumption; vm_compute; reflexivity. }
  assert (Hideal : forall u : ideal, maximum (maximum u) = maximum u).
  { intros [v |]; [| reflexivity].
    unfold maximum. cbn. f_equal.
    rewrite (Rmax_left (Rmax v (Q2R 0)) (Q2R 0)) by apply Rmax_r. reflexivity. }
  split; [exact Hfloat | split].
  - intro xs. unfold maximum_arr. rewrite map_map. apply map_ext.
    intro x. apply Hfloat.
  - intro xs. unfold maximum_arr. rewrite map_map. apply map_ext.
    exact Hideal.
Qed.

Lemma circle_of_nan (u r a b lo hi : ideal) :
  u = None \/ r = None \/ a = None \/ b = None ->
  circle u r a b (lo, hi) = None.
Proof.
  intro Hnan. unfold circle, sqrt_arg, radicand, maximum. cbn [fst snd].
  rewrite !of_bool_real.
  destruct Hnan as [-> | [-> | [-> | ->]]].
  - destruct r, a, b; reflexivity.
  - destruct u as [x |], a as [a' |], b; cbn; try reflexivity.
  - destruct u as [x |], r as [r' |], b; cbn; try reflexivity.
  - destruct u as [x |], r as [r' |], a as [a' |]; cbn;
      try reflexivity;
      destruct (Rle_dec _ _); reflexivity.
Qed.

(** X8: a value that is not a number is never masked away: if x, r, a or
    b is not a number then so is [circle], inside the interval or not, and
    so is the curve at such an x.  In binary64 the same happens at the
    infinities and at abscissae whose square overflows, such as 1e200. *)
Theorem not_a_number_propagates :
  (forall u r a b lo hi : ideal,
     u = None \/ r = None \/ a = None \/ b = None ->
     circle u r a b (lo, hi) = None) /\
  @pyts_time_series ideal _ None = None /\
  curve_is_nan_at abscissae_not_finite = true.
Proof.
  split; [exact circle_of_nan | split].
  - reflexivity.
  - vm_compute. reflexivity.
Qed.

Lemma not_a_number_propagates_witness :
  (real 5 = None \/ real 1 = None \/ real 0 = None \/ @None R = None) /\
  circle (real 5) (real 1) (real 0) None (real 0, real 1) = None.
Proof.
  assert (Hnan : real 5 = None \/ real 1 = None \/ real 0 = None \/ @None R = None)
    by (right; right; right; reflexivity).
  split; [exact Hnan |].
  exact (proj1 not_a_number_propagates (real 5) (real 1) (real 0) None
           (real 0) (real 1) Hnan).
Defined.
End CurveExtras.

(** ** More on the drawing routines *)

Section RenderExtras.
Import Logo.

Lemma linspace_length {T : Type} `{Scalar T} (start stop : T) (num : nat) :
  List.length (linspace start stop num) = num.
Proof.
  destruct num as [| [| n]]; [reflexivity | reflexivity |].
  unfold linspace. rewrite length_app, length_map, length_seq. cbn. lia.
Qed.

Lemma linspace_last {T : Type} `{Scalar T} (start stop d : T) (n : nat) :
  nth (S n) (linspace start stop (S (S n))) d = stop.
Proof.
  unfold linspace. rewrite app_nth2; rewrite length_map, length_seq; [| lia].
  rewrite Nat.sub_diag. reflexivity.
Qed.

Lemma nth_combine_map {A B : Type} (f : A -> B) (xs : list A) (i : nat) (d : A) :
  nth i (combine xs (map f xs)) (d, f d) = (nth i xs d, f (nth i xs d)).
Proof.
  revert i. induction xs as [| x xs IH]; intros [| i]; cbn; try reflexivity.
  apply IH.
Qed.

Lemma polyline_length {A : Type} (pts : list A) :
  List.length (combine (removelast pts) (tl pts)) = pred (List.length pts).
Proof.
  induction pts as [| p rest IH]; [reflexivity |].
  destruct rest as [| q r]; [reflexivity |].
  change (List.length ((p, q) :: combine (removelast (q :: r)) (tl (q :: r)))
          = S (pred (List.length (q :: r)))).
  cbn [List.length]. f_equal. exact IH.
Qed.

Lemma polyline_nth {A : Type} (pts : list A) (i : nat) (d : A) :
  (S i < List.length pts)%nat ->
  nth i (combine (removelast pts) (tl pts)) (d, d) =
  (nth i pts d, nth (S i) pts d).
Proof.
  revert i. induction pts as [| p rest IH]; intros i Hi; [cbn in Hi; lia |].
  destruct rest as [| q r]; [cbn in Hi; lia |].
  change (nth i ((p, q) :: combine (removelast (q :: r)) (tl (q :: r))) (d, d)
          = (nth i (p :: q :: r) d, nth (S i) (p :: q :: r) d)).
  destruct i as [| i]; [reflexivity |].
  cbn [nth]. apply IH. cbn [List.length] in Hi |- *. lia.
Qed.

(** X9: the curve is drawn as one connected polyline through its 800
    samples: there are 799 segments, the i-th joins the i-th sample
    (x_i, pyts_time_series(x_i)) to the next one, and the last sample is
    taken at the end of the range itself. *)
Theorem curve_is_a_connected_polyline {T : Type} `{Scalar T} (i : nat) (d : T) :
  (i < 799)%nat ->
  List.length (curve_x (T:=T)) = 800%nat /\
  List.length (segments (T:=T)) = 799%nat /\
  nth i segments ((d, pyts_time_series d), (d, pyts_time_series d)) =
    ((nth i curve_x d, pyts_time_series (nth i curve_x d)),
     (nth (S i) curve_x d, pyts_time_series (nth (S i) curve_x d))) /\
  nth 799 curve_x d = lit 1.2.
Proof.
  intro Hi.
  assert (Hx : List.length (curve_x (T:=T)) = 800%nat) by apply linspace_length.
  assert (Hp : List.length (points (T:=T)) = 800%nat).
  { unfold points, curve_y, pyts_time_series_arr.
    rewrite length_combine, length_map, Hx. apply Nat.min_id. }
  split; [exact Hx | split; [| split]].
  - unfold segments. rewrite polyline_length, Hp. reflexivity.
  - unfold segments. rewrite polyline_nth by (rewrite Hp; lia).
    unfold points, curve_y, pyts_time_series_arr.
    rewrite !nth_combine_map. reflexivity.
  - apply (linspace_last _ _ d 798).
Qed.

Lemma curve_is_a_connected_polyline_witness :
  (0 < 799)%nat /\
  nth 0 (segments (T:=float)) ((PrimFloat.zero, pyts_time_series PrimFloat.zero),
                               (PrimFloat.zero, pyts_time_series PrimFloat.zero)) =
    ((nth 0 curve_x PrimFloat.zero,
      pyts_time_series (nth 0 curve_x PrimFloat.zero)),
     (nth 1 curve_x PrimFloat.zero,
      pyts_time_series (nth 1 curve_x PrimFloat.zero))).
Proof.
  assert (Hi : (0 < 799)%nat) by lia.
  split; [exact Hi |].
  exact (proj1 (proj2 (proj2
    (curve_is_a_connected_polyline (T:=float) 0 PrimFloat.zero Hi)))).
Defined.
Lemma of_nat_real (n : nat) : of_nat n = real (IZR (Z.of_nat n)).
Proof.
  unfold of_nat. rewrite lit_real. unfold real, Q2R. f_equal. cbn. 
  rewrite Rinv_1. ring.
Qed.

Lemma grid_point_real (i : nat) :
  ((of_nat i * ((lit 1.2 - lit (-0.2)) / of_nat 799) + lit (-0.2))%np : ideal) =
  real (IZR (Z.of_nat i) * (1.4 / 799) + -0.2)%R.
Proof.
  rewrite !of_nat_real, !lit_real. change (Z.of_nat 799) with 799%Z.
  rewrite sub_real. cbn [div ideal_scalar]. unfold ideal_div, real.
  destruct (Req_dec_T (IZR 799) 0) as [Hz | _]; [lra |].
  cbn. f_equal. lra.
Qed.
Lemma curve_x_unfold {T : Type} `{Scalar T} :
  curve_x (T:=T) =
  map (fun i => (of_nat i * ((lit 1.2 - lit (-0.2)) / of_nat 799) + lit (-0.2))%np)
      (seq 0 799) ++ [lit 1.2].
Proof. reflexivity. Qed.

(** X10: [make_pyts_logo] samples the curve on an even grid: over the
    reals the i-th abscissa is -0.2 + i * 1.4 / 799, every abscissa lies
    in [-0.2, 1.2] and none is 0.9, the one point where the arc of the s
    and the offset add up; in binary64 the abscissae increase strictly
    from -0.2 to 1.2 and none equals 0.9 either. *)
Theorem sampling_grid :
  (forall i : nat, (i < 799)%nat ->
     nth i (curve_x (T:=ideal)) None =
     real (IZR (Z.of_nat i) * (1.4 / 799) + -0.2)%R) /\
  (forall u : ideal, In u curve_x ->
     exists x : R, u = real x /\ (-0.2 <= x <= 1.2)%R /\ x <> 0.9%R) /\
  sampling_grid_ok = true.
Proof.
  split; [| split].
  - intros i Hi. rewrite curve_x_unfold.
    rewrite app_nth1 by (rewrite length_map, length_seq; exact Hi).
    rewrite nth_indep
      with (d' := (of_nat 0 * ((lit 1.2 - lit (-0.2)) / of_nat 799) + lit (-0.2))%np)
      by (rewrite length_map, length_seq; exact Hi).
    rewrite (map_nth (fun i => (of_nat i * ((lit 1.2 - lit (-0.2)) / of_nat 799)
                                + lit (-0.2))%np) (seq 0 799) 0%nat i).
    rewrite seq_nth by exact Hi. apply grid_point_real.
  - intros u Hu. rewrite curve_x_unfold in Hu.
    apply in_app_or in Hu. destruct Hu as [Hu | [<- | []]].
    + apply in_map_iff in Hu. destruct Hu as [i [<- Hi]].
      apply in_seq in Hi. rewrite grid_point_real.
      eexists. split; [reflexivity |].
      assert (H0 : (0 <= IZR (Z.of_nat i))%R) by (apply IZR_le; lia).
      assert (H1 : (IZR (Z.of_nat i) <= 798)%R) by (apply IZR_le; lia).
      split; [lra |].
      destruct (Z_le_gt_dec (Z.of_nat i) 627) as [Hsmall | Hbig].
      * apply IZR_le in Hsmall. lra.
      * assert (Hbig' : (628 <= IZR (Z.of_nat i))%R) by (apply IZR_le; lia).
        lra.
    + exists 1.2%R. split; [reflexivity | split; lra].
  - vm_compute. reflexivity.
Qed.

Lemma sampling_grid_witness :
  (1 < 799)%nat /\
  nth 1 (curve_x (T:=ideal)) None = real (IZR (Z.of_nat 1) * (1.4 / 799) + -0.2)%R.
Proof.
  assert (Hi : (1 < 799)%nat) by lia.
  split; [exact Hi | exact (proj1 sampling_grid 1%nat Hi)].
Defined.
Lemma logo_view {T : Type} `{Scalar T} (cmap background_color : string)
    (output_file : option string) (dpi : T) :
  view_of (make_pyts_logo cmap background_color output_file dpi) =
  Some ((lit (-0.25), lit 1.25), (lit (-0.65), lit 0.25)).
Proof. destruct output_file; reflexivity. Qed.

(** X11: nothing is drawn outside the view.  In binary64, whatever the
    arguments, every vertex, line end, text anchor, rectangle corner, arc
    box and curve sample of either routine lies within the limits the
    routine sets; over the reals every point of the curve above
    [-0.2, 1.2] lies within the view of [make_pyts_logo]. *)
Theorem nothing_is_drawn_outside_the_view :
  (forall (background_color text_color text cmap : string)
          (fontsize : float) (figsize : float * float)
          (output_file : option string) (dpi : float),
     drawn_within_view
       (Ribbon.make_github_ribbon background_color text_color text fontsize
          figsize output_file dpi) = true /\
     drawn_within_view
       (make_pyts_logo cmap background_color output_file dpi) = true) /\
  (forall (cmap background_color : string) (output_file : option string)
          (dpi : ideal) (x : R),
     (-0.2 <= x <= 1.2)%R ->
     exists v : (ideal * ideal) * (ideal * ideal),
       view_of (make_pyts_logo cmap background_color output_file dpi) = Some v /\
       within v (real x, pyts_time_series (real x)) = true).
Proof.
  split.
  - intros bg tc text cmap fontsize figsize output_file dpi.
    destruct output_file; split; vm_compute; reflexivity.
  - intros cmap bg output_file dpi x Hx.
    eexists. split; [apply logo_view |].
    rewrite pyts_time_series_piecewise_at.
    pose proof (pyts_piecewise_range x) as Hy.
    unfold within. cbn [fst snd]. rewrite !lit_real, !le_real.
    rewrite !Rleb_true by (unfold Q2R; cbn; lra).
    reflexivity.
Qed.

Lemma nothing_is_drawn_outside_the_view_witness :
  (-0.2 <= 0.5 <= 1.2)%R /\
  exists v : (ideal * ideal) * (ideal * ideal),
    view_of (make_pyts_logo "jet" "darkslategray" None (real 400)) = Some v /\
    within v (real 0.5, pyts_time_series (real 0.5)) = true.
Proof.
  assert (Hx : (-0.2 <= 0.5 <= 1.2)%R) by lra.
  split; [exact Hx |].
  exact (proj2 nothing_is_drawn_outside_the_view "jet"%string
           "darkslategray"%string None (real 400) 0.5%R Hx).
Defined.

(** X12: the ribbon is a band along the diagonal.  Its two slanted edges
    lie on x + y = 0.9 and x + y = 1; the two dashed lines run parallel
    to them on x + y = 0.905 and x + y = 0.995, that is 0.005 inside
    either edge; and the text is anchored on the middle line
    x + y = 0.95. *)
Theorem ribbon_is_a_diagonal_band
    (background_color text_color text : string) (fontsize : ideal)
    (figsize : ideal * ideal) (output_file : option string) (dpi : ideal) :
  let ribbon :=
    Ribbon.make_github_ribbon background_color text_color text fontsize
      figsize output_file dpi in
  map diagonal (Ribbon.ribbon_xy (T:=ideal)) =
    [real 0.9; real 1; real 1; real 0.9] /\
  map (map diagonal) (plotted ribbon) =
    [[real 0.905; real 0.905]; [real 0.995; real 0.995]] /\
  map diagonal (text_anchors ribbon) = [real 0.95].
Proof.
  intro ribbon. subst ribbon.
  split; [| split].
  - unfold Ribbon.ribbon_xy, Ribbon.left, Ribbon.center, Ribbon.right, diagonal.
    cbn [combine map fst snd]. autorewrite with ideal.
    replace (0.3 + 0.6)%R with 0.9%R by lra.
    replace (0.4 + 0.6)%R with 1%R by lra.
    replace (0.6 + 0.4)%R with 1%R by lra.
    replace (0.6 + 0.3)%R with 0.9%R by lra.
    reflexivity.
  - destruct output_file;
      unfold Ribbon.make_github_ribbon, Ribbon.ribbon_drawing, plotted;
      cbn [app flat_map combine map];
      unfold diagonal, Ribbon.left, Ribbon.center, Ribbon.right, Ribbon.epsilon;
      cbn [fst snd]; autorewrite with ideal;
      replace (0.3 + 0.005 + 0.6)%R with 0.905%R by lra;
      replace (0.6 + (0.3 + 0.005))%R with 0.905%R by lra;
      replace (0.4 - 0.005 + 0.6)%R with 0.995%R by lra;
      replace (0.6 + (0.4 - 0.005))%R with 0.995%R by lra;
      reflexivity.
  - destruct output_file;
      unfold Ribbon.make_github_ribbon, Ribbon.ribbon_drawing, text_anchors;
      cbn [app flat_map map]; unfold diagonal; cbn [fst snd];
      autorewrite with ideal;
      replace (0.475 + 0.475)%R with 0.95%R by lra;
      reflexivity.
Qed.
End RenderExtras.

